(** * User registration: Cognito identity + DynamoDB profile record

    A shallow embedding of [src/services/user/register.ts] (the registration
    coordinator, the subject-id extraction and the collision guard) and of
    [src/services/dynamo/user-table/create.ts] (the conditional insert).

    The TypeScript code is [async] straight-line code that talks to two
    remote services, a logger, a random id generator and the clock, and that
    signals failure by throwing.  It is modelled in a state-and-exception
    monad over a [World] that holds the DynamoDB table, the answers of the
    identity provider, the log and the trace of remote calls made so far. *)

From Stdlib Require Import Ascii String List ZArith Bool.
From stdpp Require Import base option list strings gmap fin_maps.

Import ListNotations.
Local Open Scope string_scope.
Local Open Scope list_scope.

(** ** JavaScript values used by the code *)

(** What [throw] carries.  [createError(status, message)] of [http-errors]
    builds an [HttpError]; everything else (a [TypeError] of the runtime, an
    exception of the AWS SDK) is an [Error] object with a [name] and a
    [message]. *)
Inductive Exn : Type :=
| HttpError (status : Z) (message : string)
| JsError (name : string) (message : string).

Definition createError (status : Z) (message : string) : Exn :=
  HttpError status message.

(** [name] of the error objects [http-errors] builds, for the two status
    codes this code uses. *)
Definition httpErrorName (status : Z) : string :=
  if (status =? 400)%Z then "BadRequestError"
  else if (status =? 500)%Z then "InternalServerError"
  else "Error".

(** [const { name, message } = <Error>error] *)
Definition errName (e : Exn) : string :=
  match e with
  | HttpError status _ => httpErrorName status
  | JsError name _ => name
  end.

Definition errMessage (e : Exn) : string :=
  match e with
  | HttpError _ message => message
  | JsError _ message => message
  end.

(** The status class of an error as the HTTP layer sees it. *)
Definition is4xx (e : Exn) : bool :=
  match e with
  | HttpError status _ => ((400 <=? status) && (status <? 500))%Z
  | JsError _ _ => false
  end.

Definition is5xx (e : Exn) : bool :=
  match e with
  | HttpError status _ => ((500 <=? status) && (status <? 600))%Z
  | JsError _ _ => false
  end.

(** A value of type [string | undefined]. *)
Definition js_string : Type := option string.

(** [!x] on a [string | undefined]: true on [undefined] and on [''] . *)
Definition js_not (x : js_string) : bool :=
  match x with
  | None => true
  | Some s => if decide (s = EmptyString) then true else false
  end.

(** [`${x}`] on a [string | undefined]. *)
Definition js_template (x : js_string) : string :=
  match x with
  | None => "undefined"
  | Some s => s
  end.

(** ** Data model *)

(** [AttributeType] and [UserType] of [@aws-sdk/client-cognito-identity-provider];
    every member is optional in the SDK's declaration. *)
Record AttributeType : Type := mkAttribute {
  Name : js_string;
  Value : js_string
}.

Record UserType : Type := mkUserType {
  Username : js_string;
  Attributes : option (list AttributeType)
}.

(** [COGNITO_USER_GROUP] of [@/constants]; only the member the code names. *)
Inductive COGNITO_USER_GROUP : Type :=
| USER.

(** [UserCreateInput] of [@/types/user]. *)
Record UserCreateInput : Type := mkInput {
  in_name : string;
  in_email : string;
  in_password : string;
  in_repeatPassword : string;
  in_sourceIp : string;
  in_sourceSystem : string
}.

Record Bio : Type := mkBio {
  avatarUrl : string
}.

(** [User] of [@/types/user].  [id] is what [getCognitoUserId] returned, a
    [string | undefined] at run time (the project compiles without strict
    null checks). *)
Record User : Type := mkUser {
  id : js_string;
  createdAt : string;
  email : string;
  name : string;
  handle : string;
  activationCode : string;
  sourceIp : string;
  role : string;
  status : string;
  badges : list string;
  bio : Bio;
  data : list (string * string);
  sourceSystem : string
}.

(** Modelled from the spec: the class [UserModel] of [@/models/user-model] is
    not part of the excerpt.  The spec calls it "the wrapped profile model",
    "exposing at least id, email, name, status": a wrapper around the record
    it was built from. *)
Record UserModel : Type := mkUserModel {
  model_user : User
}.

Definition model_id (m : UserModel) : js_string := id (model_user m).
Definition model_email (m : UserModel) : string := email (model_user m).
Definition model_name (m : UserModel) : string := name (model_user m).
Definition model_status (m : UserModel) : string := status (model_user m).

(** [PutItemCommand] input. *)
Record PutItemCommand : Type := mkPutItem {
  TableName : string;
  Item : User;
  ConditionExpression : string
}.

(** ** The world the code runs in *)

Inductive LogLevel : Type :=
| Debug
| Info
| Error.

(** The second argument of a logger call, [{ data: ... }]. *)
Inductive LogData : Type :=
| NoData
| DataInput (input : UserCreateInput)
| DataIdCode (id : js_string) (activationCode : string)
| DataId (id : js_string)
| DataUser (user : User) (cognitoUser : UserType).

Record LogEntry : Type := mkLog {
  log_level : LogLevel;
  log_message : string;
  log_data : LogData
}.

(** One entry per call that leaves the process.  The two lookups carry the
    answer they got. *)
Inductive Call : Type :=
| CognitoCreateUser (email name : string)
| CognitoSetPassword (email password : string)
| CognitoAddUserToGroups (email : string) (groups : list COGNITO_USER_GROUP)
| DynamoGetUserByActivationCode (activationCode : string) (found : option User)
| DynamoGetUserById (id : string) (found : option User)
| DynamoPutItem (command : PutItemCommand).

Inductive Result (A : Type) : Type :=
| Ok (a : A)
| Throw (e : Exn).
Arguments Ok {A} a.
Arguments Throw {A} e.

(** Modelled from the spec: the identity-provider adapters
    ([../cognito/create-user], [set-password], [groups/add-groups]) are not
    part of the excerpt.  The spec treats them as "an opaque service" whose
    failures "propagate unmodified": each is an arbitrary answer to its
    arguments, a result or a thrown error. *)
Record Cognito : Type := mkCognito {
  cognito_createUser : string -> string -> Result UserType;
  cognito_setPassword : string -> string -> Result unit;
  cognito_addUserToGroups : string -> list COGNITO_USER_GROUP -> Result unit
}.

Record World : Type := mkWorld {
  (* getConfig(Config.USERS_TABLE_NAME) and DEFAULT_USER_AVATAR_URL *)
  usersTableName : string;
  defaultUserAvatarUrl : string;
  (* new Date().toISOString() *)
  clock : string;
  (* the n-th value getNanoId() returns, and how many it has returned *)
  nanoId : nat -> string;
  nanoCount : nat;
  cognito : Cognito;
  (* the users table, by primary key id *)
  table : gmap string User;
  (* the name and message of the store-level failure of a PutItem request,
     if the store has one *)
  dynamoFault : PutItemCommand -> option (string * string);
  calls : list Call;
  logs : list LogEntry
}.

Definition set_table (t : gmap string User) (w : World) : World :=
  mkWorld (usersTableName w) (defaultUserAvatarUrl w) (clock w) (nanoId w)
          (nanoCount w) (cognito w) t (dynamoFault w) (calls w) (logs w).

Definition bump_nanoCount (w : World) : World :=
  mkWorld (usersTableName w) (defaultUserAvatarUrl w) (clock w) (nanoId w)
          (S (nanoCount w)) (cognito w) (table w) (dynamoFault w) (calls w)
          (logs w).

Definition add_call (c : Call) (w : World) : World :=
  mkWorld (usersTableName w) (defaultUserAvatarUrl w) (clock w) (nanoId w)
          (nanoCount w) (cognito w) (table w) (dynamoFault w) (calls w ++ [c]) (logs w).

Definition add_log (e : LogEntry) (w : World) : World :=
  mkWorld (usersTableName w) (defaultUserAvatarUrl w) (clock w) (nanoId w)
          (nanoCount w) (cognito w) (table w) (dynamoFault w) (calls w) (logs w ++ [e]).

(** ** The monad: state passing with exceptions *)

Definition M (A : Type) : Type := World -> Result A * World.

Definition ret {A} (a : A) : M A := fun w => (Ok a, w).

Definition throw {A} (e : Exn) : M A := fun w => (Throw e, w).

Definition bind {A B} (m : M A) (k : A -> M B) : M B :=
  fun w =>
    match m w with
    | (Ok a, w') => k a w'
    | (Throw e, w') => (Throw e, w')
    end.

(** [try { m } catch (error) { h error }] *)
Definition try_catch {A} (m : M A) (h : Exn -> M A) : M A :=
  fun w =>
    match m w with
    | (Ok a, w') => (Ok a, w')
    | (Throw e, w') => h e w'
    end.

(** A remote call whose answer is already decided: note it, then answer. *)
Definition remote {A} (c : Call) (r : Result A) : M A :=
  fun w => (r, add_call c w).

Declare Scope js_scope.
Delimit Scope js_scope with js.
Notation "'await' x <- m ; k" := (bind m (fun x => k))
  (at level 10, x name, m at level 100, k at level 200) : js_scope.
Notation "m ;; k" := (bind m (fun _ => k))
  (at level 100, k at level 200, right associativity) : js_scope.
Local Open Scope js_scope.

Definition lift {A} (r : Result A) : M A := fun w => (r, w).

(** ** Collaborators outside the excerpt *)

Definition is_space (c : ascii) : bool :=
  let n := nat_of_ascii c in
  (n =? 32)%nat || ((9 <=? n)%nat && (n <=? 13)%nat).

Fixpoint collapseRuns (inRun : bool) (s : string) : string :=
  match s with
  | EmptyString => EmptyString
  | String c r =>
      if is_space c
      then (if inRun then collapseRuns true r
            else String " "%char (collapseRuns true r))
      else String c (collapseRuns false r)
  end.

Fixpoint trimStart (s : string) : string :=
  match s with
  | EmptyString => EmptyString
  | String c r => if is_space c then trimStart r else s
  end.

Fixpoint trimEnd (s : string) : string :=
  match s with
  | EmptyString => EmptyString
  | String c r =>
      match trimEnd r with
      | EmptyString => if is_space c then EmptyString else String c EmptyString
      | r' => String c r'
      end
  end.

(** Modelled from the spec: [collapseSpaces] of [@/utils/string] is not part
    of the excerpt.  The spec: "collapse internal whitespace runs to single
    spaces, trim ends"; the second argument asks for the trimming. *)
Definition collapseSpaces (s : string) (trim : bool) : string :=
  let collapsed := collapseRuns false s in
  if trim then trimEnd (trimStart collapsed) else collapsed.

Definition toUpper (c : ascii) : ascii :=
  let n := nat_of_ascii c in
  if ((97 <=? n)%nat && (n <=? 122)%nat) then ascii_of_nat (n - 32) else c.

Fixpoint pascalWords (wordStart : bool) (s : string) : string :=
  match s with
  | EmptyString => EmptyString
  | String c r =>
      if is_space c then pascalWords true r
      else String (if wordStart then toUpper c else c) (pascalWords false r)
  end.

(** Modelled from the spec: [toPascalCase] of [@/utils/string] is not part of
    the excerpt.  The spec only gives the handle of the scenario
    ("Jane Doe" gives "@JaneDoe"): the words of the name, each with its first
    letter in upper case, joined without separator. *)
Definition toPascalCase (s : string) : string := pascalWords true s.

(** Modelled from the spec: [getNanoId] of [@/utils/string], "generate a
    random activation token": the next value of the world's source. *)
Definition getNanoId : M string :=
  fun w => (Ok (nanoId w (nanoCount w)), bump_nanoCount w).

(** [new Date().toISOString()] *)
Definition now : M string := fun w => (Ok (clock w), w).

Module logger.

Definition log (level : LogLevel) (message : string) (data : LogData) : M unit :=
  fun w => (Ok tt, add_log (mkLog level message data) w).

Definition debug := log Debug.
Definition info := log Info.
Definition error := log Error.

End logger.

Definition createCognitoUser (email name : string) : M UserType :=
  fun w => remote (CognitoCreateUser email name)
                  (cognito_createUser (cognito w) email name) w.

Definition setPassword (email password : string) : M unit :=
  fun w => remote (CognitoSetPassword email password)
                  (cognito_setPassword (cognito w) email password) w.

Definition addUserToGroups (email : string) (groups : list COGNITO_USER_GROUP)
  : M unit :=
  fun w => remote (CognitoAddUserToGroups email groups)
                  (cognito_addUserToGroups (cognito w) email groups) w.

Definition lookupByActivationCode (t : gmap string User) (code : string)
  : option User :=
  List.find (fun u => bool_decide (activationCode u = code))
            (List.map snd (map_to_list t)).

(** Modelled from the spec: [getUserByActivationCode] and [getUserById] of
    [../dynamo/user-table/get] are not part of the excerpt.  The spec: "point
    lookups [getById(id) -> record|absent] and
    [getByActivationCode(code) -> record|absent], each returning at most one
    record". *)
Definition getUserByActivationCode (activationCode : string) : M (option User) :=
  fun w =>
    let found := lookupByActivationCode (table w) activationCode in
    remote (DynamoGetUserByActivationCode activationCode found) (Ok found) w.

Definition getUserById (id : string) : M (option User) :=
  fun w =>
    let found := table w !! id in
    remote (DynamoGetUserById id found) (Ok found) w.

(** [marshall] of [@aws-sdk/util-dynamodb], called without options, refuses
    a member that is [undefined]. *)
Definition marshall (user : User) : Result User :=
  match id user with
  | Some _ => Ok user
  | None =>
      Throw (JsError "Error"
        "Pass options.removeUndefinedValues=true to remove undefined values from map/array/set.")
  end.

(** [client.send(command)] for a [PutItemCommand]: a store-level failure if
    the store has one; otherwise the condition [attribute_not_exists(id)] is
    checked against the item under the same key and the item is written. *)
Definition clientSend (command : PutItemCommand) : M unit :=
  fun w =>
    let w1 := add_call (DynamoPutItem command) w in
    match dynamoFault w command with
    | Some (name, message) => (Throw (JsError name message), w1)
    | None =>
        match id (Item command) with
        | None =>
            (Throw (JsError "ValidationException"
               "One or more parameter values were invalid: Missing the key id in the item"),
             w1)
        | Some key =>
            if String.eqb (ConditionExpression command) "attribute_not_exists(id)"
               && bool_decide (is_Some (table w !! key))
            then (Throw (JsError "ConditionalCheckFailedException"
                                 "The conditional request failed"), w1)
            else (Ok tt, set_table (<[key := Item command]> (table w)) w1)
        end
    end.

(** ** [src/services/dynamo/user-table/create.ts] *)

Definition createUser (user : User) : M unit :=
  await tableName <- (fun w => (Ok (usersTableName w), w)) ;
  await item <- lift (marshall user) ;
  let command :=
    {| TableName := tableName;
       Item := item;
       ConditionExpression := "attribute_not_exists(id)" |} in
  try_catch (clientSend command)
    (fun error =>
       let name := errName error in
       let message := errMessage error in
       if String.eqb name "ConditionalCheckFailedException"
       then throw (createError 400
                     ("User id " ++ js_template (id user) ++ " already exists"))
       else
         logger.error ("createUser " ++ name ++ ": " ++ message) NoData ;;
         throw (createError 500 "User registration error")).

(** ** [src/services/user/register.ts] *)

Definition createDynamoDbUser := createUser.

(** Create a new Cognito user and add to the [USER] group.  [group] is the
    parameter with default [COGNITO_USER_GROUP.USER]. *)
Definition registerCognitoUser (email name password : string)
    (group : COGNITO_USER_GROUP) : M UserType :=
  await user <- createCognitoUser email name ;
  setPassword email password ;;
  addUserToGroups email [group] ;;
  ret user.

(** [Attributes.find(attr => attr.Name === 'sub')] and [sub?.Value].  The
    code calls [find] on [Attributes] as it is: on [undefined] the runtime
    throws a [TypeError]. *)
Definition getCognitoUserId (user : UserType) : Result js_string :=
  match Attributes user with
  | None =>
      Throw (JsError "TypeError"
               "Cannot read properties of undefined (reading 'find')")
  | Some attributes =>
      let sub :=
        List.find (fun attr => bool_decide (Name attr = Some "sub")) attributes in
      Ok (match sub with
          | Some attr => Value attr
          | None => None
          end)
  end.

(** [if (!id)] is split over the two values it rejects, [undefined] and
    ['']. *)
Definition checkCollisions (id : js_string) (activationCode : string) : M unit :=
  match id with
  | None =>
      throw (createError 500
               "User registration failed: Cognito did not return a sub/id")
  | Some key =>
      if decide (key = EmptyString)
      then throw (createError 500
                    "User registration failed: Cognito did not return a sub/id")
      else
        await userByActivationCode <- getUserByActivationCode activationCode ;
        match userByActivationCode with
        | Some _ =>
            logger.error "User activationCode collision"
                         (DataIdCode id activationCode) ;;
            throw (createError 500
                     "User registration failed: activationCode collision")
        | None =>
            await userById <- getUserById key ;
            match userById with
            | Some _ =>
                logger.error "User ID collision" (DataId id) ;;
                throw (createError 500
                         "User registration failed: User id collision")
            | None => ret tt
            end
        end
  end.

Definition registerUser (input : UserCreateInput) : M UserModel :=
  logger.debug "Start user registration" (DataInput input) ;;
  if bool_decide (in_password input ≠ in_repeatPassword input)
  then throw (createError 400 "Password and repeat password must match")
  else
    let name := collapseSpaces (in_name input) true in
    let email := collapseSpaces (in_email input) true in
    await cognitoUser <- registerCognitoUser email name (in_password input) USER ;
    await id <- lift (getCognitoUserId cognitoUser) ;
    await activationCode <- getNanoId ;
    checkCollisions id activationCode ;;
    await createdAt <- now ;
    await avatar <- (fun w => (Ok (defaultUserAvatarUrl w), w)) ;
    let user :=
      {| id := id;
         createdAt := createdAt;
         email := email;
         name := name;
         handle := "@" ++ toPascalCase name;
         activationCode := activationCode;
         sourceIp := in_sourceIp input;
         role := "USER";
         status := "UNCONFIRMED";
         badges := ["NEW_MEMBER"];
         bio := {| avatarUrl := avatar |};
         data := [];
         sourceSystem := in_sourceSystem input |} in
    createDynamoDbUser user ;;
    logger.info "New user registration complete" (DataUser user cognitoUser) ;;
    ret (mkUserModel user).

(** ** A concrete run: the scenario of the spec *)

Definition janeInput : UserCreateInput :=
  {| in_name := "  Jane   Doe ";
     in_email := "jane@x.com";
     in_password := "p";
     in_repeatPassword := "p";
     in_sourceIp := "1.2.3.4";
     in_sourceSystem := "web" |}.

Definition cognitoReturning (user : UserType) : Cognito :=
  {| cognito_createUser := fun _ _ => Ok user;
     cognito_setPassword := fun _ _ => Ok tt;
     cognito_addUserToGroups := fun _ _ => Ok tt |}.

Definition worldWith (user : UserType) (t : gmap string User) : World :=
  {| usersTableName := "users";
     defaultUserAvatarUrl := "https://example.org/avatar.png";
     clock := "2023-01-01T00:00:00.000Z";
     nanoId := fun _ => "V1StGXR8_Z5jdHi6B-myT";
     nanoCount := 0;
     cognito := cognitoReturning user;
     table := t;
     dynamoFault := fun _ => None;
     calls := [];
     logs := [] |}.

Definition janeCognitoUser : UserType :=
  {| Username := Some "jane@x.com";
     Attributes := Some [ {| Name := Some "email"; Value := Some "jane@x.com" |};
                          {| Name := Some "sub"; Value := Some "abc-123" |} ] |}.

Definition janeWorld : World := worldWith janeCognitoUser ∅.

Definition janeUser : User :=
  {| id := Some "abc-123";
     createdAt := "2023-01-01T00:00:00.000Z";
     email := "jane@x.com";
     name := "Jane Doe";
     handle := "@JaneDoe";
     activationCode := "V1StGXR8_Z5jdHi6B-myT";
     sourceIp := "1.2.3.4";
     role := "USER";
     status := "UNCONFIRMED";
     badges := ["NEW_MEMBER"];
     bio := {| avatarUrl := "https://example.org/avatar.png" |};
     data := [];
     sourceSystem := "web" |}.

(** ** Reading the trace *)

Definition isGetUserByActivationCode (c : Call) : bool :=
  match c with
  | DynamoGetUserByActivationCode _ _ => true
  | _ => false
  end.

Definition isGetUserById (c : Call) : bool :=
  match c with
  | DynamoGetUserById _ _ => true
  | _ => false
  end.

Definition isPutItem (c : Call) : bool :=
  match c with
  | DynamoPutItem _ => true
  | _ => false
  end.

Definition isLookup (c : Call) : bool :=
  isGetUserByActivationCode c || isGetUserById c.

Definition isStoreCall (c : Call) : bool :=
  isLookup c || isPutItem c.

(** The provider answers the three requests of a registration of [input],
    the first with [cognitoUser]. *)
Definition providerReturns (w : World) (input : UserCreateInput)
    (cognitoUser : UserType) : Prop :=
  let name := collapseSpaces (in_name input) true in
  let email := collapseSpaces (in_email input) true in
  cognito_createUser (cognito w) email name = Ok cognitoUser ∧
  cognito_setPassword (cognito w) email (in_password input) = Ok tt ∧
  cognito_addUserToGroups (cognito w) email [USER] = Ok tt.

(** The world after the three provider requests of a registration. *)
Definition afterProvider (w : World) (input : UserCreateInput) : World :=
  let name := collapseSpaces (in_name input) true in
  let email := collapseSpaces (in_email input) true in
  add_call (CognitoAddUserToGroups email [USER])
    (add_call (CognitoSetPassword email (in_password input))
       (add_call (CognitoCreateUser email name)
          (add_log (mkLog Debug "Start user registration" (DataInput input)) w))).

(** The [sub] entry [getCognitoUserId] picks from an attribute list. *)
Definition findSub (attributes : list AttributeType) : option AttributeType :=
  List.find (fun attr => bool_decide (Name attr = Some "sub")) attributes.

(** The record [registerUser] assembles. *)
Definition newUser (input : UserCreateInput) (w : World) (id : js_string)
    (activationCode : string) : User :=
  let name := collapseSpaces (in_name input) true in
  {| id := id;
     createdAt := clock w;
     email := collapseSpaces (in_email input) true;
     name := name;
     handle := "@" ++ toPascalCase name;
     activationCode := activationCode;
     sourceIp := in_sourceIp input;
     role := "USER";
     status := "UNCONFIRMED";
     badges := ["NEW_MEMBER"];
     bio := {| avatarUrl := defaultUserAvatarUrl w |};
     data := [];
     sourceSystem := in_sourceSystem input |}.

(** The command [createUser] sends for [user]. *)
Definition putItemCommand (w : World) (user : User) : PutItemCommand :=
  {| TableName := usersTableName w;
     Item := user;
     ConditionExpression := "attribute_not_exists(id)" |}.

(** What [getCognitoUserId] returns on a record with this attribute list. *)
Definition subValue (attributes : list AttributeType) : js_string :=
  match findSub attributes with
  | Some attr => Value attr
  | None => None
  end.

(** ** Further concrete worlds *)

Definition mismatchInput : UserCreateInput :=
  {| in_name := "  Jane   Doe ";
     in_email := "jane@x.com";
     in_password := "p";
     in_repeatPassword := "q";
     in_sourceIp := "1.2.3.4";
     in_sourceSystem := "web" |}.

(** An earlier profile that already holds the activation code the generator
    is about to return. *)
Definition sameCodeUser : User :=
  {| id := Some "zzz-999";
     createdAt := "2022-06-01T00:00:00.000Z";
     email := "bob@x.com";
     name := "Bob Roe";
     handle := "@BobRoe";
     activationCode := "V1StGXR8_Z5jdHi6B-myT";
     sourceIp := "5.6.7.8";
     role := "USER";
     status := "UNCONFIRMED";
     badges := ["NEW_MEMBER"];
     bio := {| avatarUrl := "https://example.org/avatar.png" |};
     data := [];
     sourceSystem := "web" |}.

(** An earlier profile stored under the subject id the provider is about to
    return. *)
Definition sameIdUser : User :=
  {| id := Some "abc-123";
     createdAt := "2022-06-01T00:00:00.000Z";
     email := "bob@x.com";
     name := "Bob Roe";
     handle := "@BobRoe";
     activationCode := "another-activation-code";
     sourceIp := "5.6.7.8";
     role := "USER";
     status := "CONFIRMED";
     badges := ["NEW_MEMBER"];
     bio := {| avatarUrl := "https://example.org/avatar.png" |};
     data := [];
     sourceSystem := "web" |}.

Definition codeCollisionWorld : World :=
  worldWith janeCognitoUser {[ "zzz-999" := sameCodeUser ]}.

Definition idCollisionWorld : World :=
  worldWith janeCognitoUser {[ "abc-123" := sameIdUser ]}.

(** A provider record without attribute list, and one whose list has no
    [sub] entry. *)
Definition noAttributesUser : UserType :=
  {| Username := Some "jane@x.com"; Attributes := None |}.

Definition noSubUser : UserType :=
  {| Username := Some "jane@x.com";
     Attributes := Some [ {| Name := Some "email"; Value := Some "jane@x.com" |} ] |}.

Definition noAttributesWorld : World := worldWith noAttributesUser ∅.

Definition noSubWorld : World := worldWith noSubUser ∅.

(** The scenario's world with a store whose [PutItem] fails. *)
Definition faultyWorld (name message : string) : World :=
  mkWorld (usersTableName janeWorld) (defaultUserAvatarUrl janeWorld)
          (clock janeWorld) (nanoId janeWorld) (nanoCount janeWorld)
          (cognito janeWorld) (table janeWorld) (fun _ => Some (name, message))
          (calls janeWorld) (logs janeWorld).

(** The scenario's world with a provider that creates the identity and then
    refuses the password. *)
Definition passwordRejectedWorld : World :=
  mkWorld (usersTableName janeWorld) (defaultUserAvatarUrl janeWorld)
          (clock janeWorld) (nanoId janeWorld) (nanoCount janeWorld)
          {| cognito_createUser := fun _ _ => Ok janeCognitoUser;
             cognito_setPassword := fun _ _ =>
               Throw (JsError "InvalidPasswordException"
                              "Password did not conform with policy");
             cognito_addUserToGroups := fun _ _ => Ok tt |}
          (table janeWorld) (dynamoFault janeWorld)
          (calls janeWorld) (logs janeWorld).

(** A provider record with two [sub] entries. *)
Definition twoSubsUser : UserType :=
  {| Username := Some "jane@x.com";
     Attributes := Some [ {| Name := Some "email"; Value := Some "jane@x.com" |};
                          {| Name := Some "sub"; Value := Some "abc-123" |};
                          {| Name := Some "sub"; Value := Some "def-456" |} ] |}.

(** The first log entry of a registration. *)
Definition startEntry (input : UserCreateInput) : LogEntry :=
  mkLog Debug "Start user registration" (DataInput input).

Arguments collapseSpaces : simpl never.
Arguments toPascalCase : simpl never.

(** ** Basic facts *)

Example collapseSpaces_jane : collapseSpaces "  Jane   Doe " true = "Jane Doe".
Proof. reflexivity. Qed.

Example toPascalCase_jane : toPascalCase "Jane Doe" = "JaneDoe".
Proof. reflexivity. Qed.

Example registerUser_jane_result :
  fst (registerUser janeInput janeWorld) = Ok (mkUserModel janeUser).
Proof. vm_compute. reflexivity. Qed.

Example registerUser_jane_table :
  table (snd (registerUser janeInput janeWorld)) !! "abc-123" = Some janeUser.
Proof. vm_compute. reflexivity. Qed.

(** ** The phases of a registration *)

Lemma js_not_true (x : js_string) :
  js_not x = true ↔ x = None ∨ x = Some EmptyString.
Proof.
  destruct x as [s|]; simpl.
  - destruct (decide (s = EmptyString)) as [->|Hs]; split; intros H; auto.
    + discriminate.
    + destruct H as [H|H]; [discriminate | congruence].
  - split; auto.
Qed.

Lemma getCognitoUserId_present (user : UserType) (attributes : list AttributeType) :
  Attributes user = Some attributes →
  getCognitoUserId user =
    Ok (subValue attributes).
Proof. intros H. unfold getCognitoUserId. rewrite H. reflexivity. Qed.

Lemma getCognitoUserId_absent (user : UserType) :
  Attributes user = None →
  getCognitoUserId user =
    Throw (JsError "TypeError" "Cannot read properties of undefined (reading 'find')").
Proof. intros H. unfold getCognitoUserId. rewrite H. reflexivity. Qed.

Lemma registerCognitoUser_run (email name password : string)
    (group : COGNITO_USER_GROUP) (w : World) :
  registerCognitoUser email name password group w =
    let w1 := add_call (CognitoCreateUser email name) w in
    match cognito_createUser (cognito w) email name with
    | Throw e => (Throw e, w1)
    | Ok user =>
        let w2 := add_call (CognitoSetPassword email password) w1 in
        match cognito_setPassword (cognito w) email password with
        | Throw e => (Throw e, w2)
        | Ok _ =>
            let w3 := add_call (CognitoAddUserToGroups email [group]) w2 in
            match cognito_addUserToGroups (cognito w) email [group] with
            | Throw e => (Throw e, w3)
            | Ok _ => (Ok user, w3)
            end
        end
    end.
Proof.
  unfold registerCognitoUser, bind, createCognitoUser, setPassword,
    addUserToGroups, remote, ret; simpl.
  destruct (cognito_createUser _ _ _); simpl; [|reflexivity].
  destruct (cognito_setPassword _ _ _); simpl; [|reflexivity].
  destruct (cognito_addUserToGroups _ _ _); reflexivity.
Qed.

Lemma checkCollisions_falsy (id : js_string) (activationCode : string) (w : World) :
  js_not id = true →
  checkCollisions id activationCode w =
    (Throw (createError 500
              "User registration failed: Cognito did not return a sub/id"), w).
Proof.
  intros [->| ->]%js_not_true; reflexivity.
Qed.

Lemma checkCollisions_run (key activationCode : string) (w : World) :
  key ≠ EmptyString →
  checkCollisions (Some key) activationCode w =
    let byCode := lookupByActivationCode (table w) activationCode in
    let w1 := add_call (DynamoGetUserByActivationCode activationCode byCode) w in
    match byCode with
    | Some _ =>
        (Throw (createError 500
                  "User registration failed: activationCode collision"),
         add_log (mkLog Error "User activationCode collision"
                        (DataIdCode (Some key) activationCode)) w1)
    | None =>
        let byId := table w !! key in
        let w2 := add_call (DynamoGetUserById key byId) w1 in
        match byId with
        | Some _ =>
            (Throw (createError 500
                      "User registration failed: User id collision"),
             add_log (mkLog Error "User ID collision" (DataId (Some key))) w2)
        | None => (Ok tt, w2)
        end
    end.
Proof.
  intros Hkey. unfold checkCollisions.
  destruct (decide (key = EmptyString)) as [?|_]; [contradiction|].
  unfold bind, getUserByActivationCode, getUserById, remote; simpl.
  destruct (lookupByActivationCode (table w) activationCode); simpl; [reflexivity|].
  destruct (table w !! key); reflexivity.
Qed.

Lemma createUser_run (user : User) (key : string) (w : World) :
  id user = Some key →
  createUser user w =
    match clientSend (putItemCommand w user) w with
    | (Ok _, w1) => (Ok tt, w1)
    | (Throw e, w1) =>
        if String.eqb (errName e) "ConditionalCheckFailedException"
        then (Throw (createError 400 ("User id " ++ key ++ " already exists")), w1)
        else (Throw (createError 500 "User registration error"),
              add_log (mkLog Error
                         ("createUser " ++ errName e ++ ": " ++ errMessage e)
                         NoData) w1)
    end.
Proof.
  intros Hid. unfold createUser, marshall, lift, bind, try_catch, putItemCommand.
  rewrite Hid. simpl.
  destruct (clientSend _ w) as [[[]|e] w1]; [reflexivity|].
  destruct (String.eqb (errName e) _); reflexivity.
Qed.

Lemma registerUser_run (input : UserCreateInput) (w : World) :
  registerUser input w =
    let w0 := add_log (mkLog Debug "Start user registration" (DataInput input)) w in
    if bool_decide (in_password input ≠ in_repeatPassword input)
    then (Throw (createError 400 "Password and repeat password must match"), w0)
    else
      match registerCognitoUser (collapseSpaces (in_email input) true)
              (collapseSpaces (in_name input) true) (in_password input) USER w0 with
      | (Throw e, w1) => (Throw e, w1)
      | (Ok cognitoUser, w1) =>
          match getCognitoUserId cognitoUser with
          | Throw e => (Throw e, w1)
          | Ok id =>
              let activationCode := nanoId w1 (nanoCount w1) in
              match checkCollisions id activationCode (bump_nanoCount w1) with
              | (Throw e, w2) => (Throw e, w2)
              | (Ok _, w2) =>
                  let user := newUser input w2 id activationCode in
                  match createUser user w2 with
                  | (Throw e, w3) => (Throw e, w3)
                  | (Ok _, w3) =>
                      (Ok (mkUserModel user),
                       add_log (mkLog Info "New user registration complete"
                                      (DataUser user cognitoUser)) w3)
                  end
              end
          end
      end.
Proof.
  unfold registerUser, bind, logger.debug, logger.info, logger.log, lift, ret,
    throw, getNanoId, now, createDynamoDbUser, newUser; simpl.
  destruct (bool_decide _); [reflexivity|].
  destruct (registerCognitoUser _ _ _ _ _) as [[cognitoUser|e] w1]; [|reflexivity].
  destruct (getCognitoUserId cognitoUser) as [id|e]; [|reflexivity].
  destruct (checkCollisions _ _ _) as [[[]|e] w2]; [|reflexivity].
  destruct (createUser _ w2) as [[[]|e] w3]; reflexivity.
Qed.

Lemma clientSend_calls (command : PutItemCommand) (w : World) :
  calls (snd (clientSend command w)) = calls w ++ [DynamoPutItem command].
Proof.
  unfold clientSend.
  destruct (dynamoFault w command) as [[n m]|]; [reflexivity|].
  destruct (id (Item command)); [|reflexivity].
  destruct (_ && _); reflexivity.
Qed.

Lemma createUser_calls (user : User) (key : string) (w : World) :
  id user = Some key →
  calls (snd (createUser user w)) = calls w ++ [DynamoPutItem (putItemCommand w user)].
Proof.
  intros Hid. rewrite (createUser_run user key w Hid).
  pose proof (clientSend_calls (putItemCommand w user) w) as H.
  destruct (clientSend _ w) as [[[]|e] w1]; simpl in *; [exact H|].
  destruct (String.eqb _ _); exact H.
Qed.

(** Splits a run of [registerUser] into its paths. *)
Ltac run_paths H :=
  rewrite registerUser_run in H; cbv zeta in H;
  case_bool_decide;
  [ | rewrite registerCognitoUser_run in H; cbv zeta in H;
      destruct (cognito_createUser _ _ _) as [cognitoUser|?] eqn:Hcreate;
      [ destruct (cognito_setPassword _ _ _) as [[]|?] eqn:Hset;
        [ destruct (cognito_addUserToGroups _ _ _) as [[]|?] eqn:Hadd;
          [ destruct (getCognitoUserId cognitoUser) as [[key|]|?] eqn:Hsub;
            [ destruct (decide (key = EmptyString)) as [->|Hkey];
              [ | rewrite (checkCollisions_run key _ _ Hkey) in H; cbv zeta in H;
                  destruct (lookupByActivationCode _ _) as [byCode|] eqn:HbyCode;
                  [ | destruct (table _ !! key) as [byId|] eqn:HbyId ] ]
            | | ]
          | ]
        | ]
      | ] ].

(** On the path that reaches the insert: its two outcomes, and the call it
    adds to the trace. *)
Ltac split_insert H :=
  match type of H with
  | context [createUser ?user ?w2] =>
      let Hc := fresh "Hc" in
      pose proof (createUser_calls user _ w2 eq_refl) as Hcalls;
      destruct (createUser user w2) as [[[]|?] ?] eqn:Hc;
      simpl in Hcalls
  end.

Lemma app_self_nil {A} (l t : list A) : l = l ++ t → [] = t.
Proof. intros H. apply (app_inv_head l). rewrite app_nil_r. exact H. Qed.

(** From [calls w' = calls w ++ t] with [calls w'] computed, the trace [t]. *)
Ltac get_trace Ht :=
  simpl in Ht; rewrite <- ?app_assoc in Ht; simpl in Ht;
  first [ apply app_inv_head in Ht | apply app_self_nil in Ht ]; subst.

(** ** Password check *)

(** C1: a request whose password and repeated password differ is rejected
    with the 400 error "Password and repeat password must match"; the only
    effect is the debug log entry, so no call to the identity provider and no
    call to the profile store is made and the table is untouched. *)
Theorem registerUser_password_mismatch (input : UserCreateInput) (w : World) :
  in_password input ≠ in_repeatPassword input →
  registerUser input w =
    (Throw (HttpError 400 "Password and repeat password must match"),
     add_log (mkLog Debug "Start user registration" (DataInput input)) w) ∧
  is4xx (HttpError 400 "Password and repeat password must match") = true ∧
  calls (snd (registerUser input w)) = calls w ∧
  table (snd (registerUser input w)) = table w.
Proof.
  intros Hne.
  assert (registerUser input w =
    (Throw (HttpError 400 "Password and repeat password must match"),
     add_log (mkLog Debug "Start user registration" (DataInput input)) w)) as E.
  { rewrite registerUser_run. cbv zeta.
    rewrite bool_decide_eq_true_2 by exact Hne. reflexivity. }
  rewrite E. repeat split.
Qed.

Lemma registerUser_password_mismatch_witness :
  in_password mismatchInput ≠ in_repeatPassword mismatchInput ∧
  registerUser mismatchInput janeWorld =
    (Throw (HttpError 400 "Password and repeat password must match"),
     add_log (mkLog Debug "Start user registration" (DataInput mismatchInput))
             janeWorld).
Proof.
  assert (in_password mismatchInput ≠ in_repeatPassword mismatchInput) as Hne
    by (vm_compute; discriminate).
  split; [exact Hne|].
  apply (registerUser_password_mismatch mismatchInput janeWorld Hne).
Defined.

(** ** The identifier of the new profile *)

(** C2: when a registration succeeds, the identity provider returned a record
    with an attribute list, that list has a [sub] entry (the first one is the
    one found), and the [id] of the returned profile model is the [Value] of
    that entry. *)
Theorem registerUser_id_is_sub (input : UserCreateInput) (w w' : World)
    (model : UserModel) :
  registerUser input w = (Ok model, w') →
  ∃ cognitoUser attributes sub value,
    cognito_createUser (cognito w) (collapseSpaces (in_email input) true)
                       (collapseSpaces (in_name input) true) = Ok cognitoUser ∧
    Attributes cognitoUser = Some attributes ∧
    findSub attributes = Some sub ∧
    Value sub = Some value ∧
    model_id model = Some value.
Proof.
  intros H. run_paths H; simpl in H; try discriminate.
  destruct (createUser _ _) as [[[]|e] w3]; [|discriminate].
  injection H as <- <-.
  unfold getCognitoUserId in Hsub.
  destruct (Attributes cognitoUser) as [attributes|] eqn:Hattrs; [|discriminate].
  simpl in Hsub. fold (findSub attributes) in Hsub.
  destruct (findSub attributes) as [sub|] eqn:Hfind; [|discriminate].
  injection Hsub as Hvalue.
  exists cognitoUser, attributes, sub, key. repeat split; assumption.
Qed.

Lemma registerUser_id_is_sub_witness :
  ∃ cognitoUser attributes sub value,
    cognito_createUser (cognito janeWorld)
      (collapseSpaces (in_email janeInput) true)
      (collapseSpaces (in_name janeInput) true) = Ok cognitoUser ∧
    Attributes cognitoUser = Some attributes ∧
    findSub attributes = Some sub ∧
    Value sub = Some value ∧
    model_id (mkUserModel janeUser) = Some value.
Proof.
  apply (registerUser_id_is_sub janeInput janeWorld
           (snd (registerUser janeInput janeWorld)) (mkUserModel janeUser)).
  vm_compute. reflexivity.
Defined.

(** ** Collisions *)

(** C4: in every run of [registerUser] in which the lookup by activation code
    came back with a record, the registration fails with the 500 error
    "User registration failed: activationCode collision", and the run
    contains no lookup by id and no [PutItem]. *)
Theorem registerUser_activationCode_collision (input : UserCreateInput)
    (w w' : World) (r : Result UserModel) (t : list Call)
    (code : string) (existing : User) :
  registerUser input w = (r, w') →
  calls w' = calls w ++ t →
  In (DynamoGetUserByActivationCode code (Some existing)) t →
  r = Throw (HttpError 500 "User registration failed: activationCode collision") ∧
  is5xx (HttpError 500 "User registration failed: activationCode collision") = true ∧
  Forall (fun c => isGetUserById c = false ∧ isPutItem c = false) t.
Proof.
  intros H Ht Hin. run_paths H; simpl in H; try split_insert H;
    injection H as <- <-; simpl in Ht; try rewrite Hcalls in Ht; get_trace Ht;
    simpl in Hin; try solve [intuition discriminate].
  repeat split. repeat constructor.
Qed.

Lemma registerUser_activationCode_collision_witness :
  fst (registerUser janeInput codeCollisionWorld) =
    Throw (HttpError 500 "User registration failed: activationCode collision").
Proof.
  apply (registerUser_activationCode_collision janeInput codeCollisionWorld
           (snd (registerUser janeInput codeCollisionWorld))
           (fst (registerUser janeInput codeCollisionWorld))
           (calls (snd (registerUser janeInput codeCollisionWorld)))
           "V1StGXR8_Z5jdHi6B-myT" sameCodeUser).
  - vm_compute. reflexivity.
  - vm_compute. reflexivity.
  - vm_compute. tauto.
Defined.

(** C5: in every run of [registerUser] in which the lookup by id came back
    with a record, the lookup by activation code was made before and found
    none, the registration fails with the 500 error
    "User registration failed: User id collision", and the run contains no
    [PutItem]. *)
Theorem registerUser_id_collision (input : UserCreateInput)
    (w w' : World) (r : Result UserModel) (t : list Call)
    (candidate : string) (existing : User) :
  registerUser input w = (r, w') →
  calls w' = calls w ++ t →
  In (DynamoGetUserById candidate (Some existing)) t →
  r = Throw (HttpError 500 "User registration failed: User id collision") ∧
  is5xx (HttpError 500 "User registration failed: User id collision") = true ∧
  (∃ code, In (DynamoGetUserByActivationCode code None) t) ∧
  Forall (fun c => isPutItem c = false) t.
Proof.
  intros H Ht Hin. run_paths H; simpl in H; try split_insert H;
    injection H as <- <-; simpl in Ht; try rewrite Hcalls in Ht; get_trace Ht;
    simpl in Hin; try solve [intuition discriminate].
  repeat split.
  - eexists. simpl. eauto 6.
  - repeat constructor.
Qed.

Lemma registerUser_id_collision_witness :
  fst (registerUser janeInput idCollisionWorld) =
    Throw (HttpError 500 "User registration failed: User id collision").
Proof.
  apply (registerUser_id_collision janeInput idCollisionWorld
           (snd (registerUser janeInput idCollisionWorld))
           (fst (registerUser janeInput idCollisionWorld))
           (calls (snd (registerUser janeInput idCollisionWorld)))
           "abc-123" sameIdUser).
  - vm_compute. reflexivity.
  - vm_compute. reflexivity.
  - vm_compute. tauto.
Defined.

(** C8: whatever the candidate id and activation code, and whether the guard
    returns or throws, [checkCollisions] leaves the table as it found it; the
    calls it makes are lookups only, at most two; nothing else of the world
    changes but the log. *)
Theorem checkCollisions_read_only (id : js_string) (activationCode : string)
    (w : World) :
  let w' := snd (checkCollisions id activationCode w) in
  table w' = table w ∧
  (∃ t, calls w' = calls w ++ t ∧ forallb isLookup t = true ∧ (length t <= 2)%nat) ∧
  nanoCount w' = nanoCount w ∧
  nanoId w' = nanoId w ∧
  clock w' = clock w ∧
  cognito w' = cognito w ∧
  dynamoFault w' = dynamoFault w ∧
  usersTableName w' = usersTableName w ∧
  defaultUserAvatarUrl w' = defaultUserAvatarUrl w.
Proof.
  assert (∀ t : list Call, forallb isLookup t = true → (length t <= 2)%nat →
            ∃ t', calls w ++ t = calls w ++ t' ∧ forallb isLookup t' = true ∧
                  (length t' <= 2)%nat) as Htrace by eauto.
  destruct (js_not id) eqn:Hfalsy.
  - rewrite (checkCollisions_falsy _ _ _ Hfalsy). simpl.
    split; [reflexivity|]. split; [|repeat split].
    exists []. rewrite app_nil_r. simpl. auto with lia.
  - destruct id as [key|]; [|discriminate]. simpl in Hfalsy.
    destruct (decide (key = EmptyString)) as [|Hkey]; [discriminate|].
    rewrite (checkCollisions_run _ _ _ Hkey). cbv zeta.
    destruct (lookupByActivationCode _ _) as [byCode|]; simpl.
    + split; [reflexivity|]. split; [|repeat split].
      apply Htrace; simpl; auto with lia.
    + destruct (table w !! key) as [byId|]; simpl;
        (split; [reflexivity|]; split; [|repeat split]);
        rewrite <- app_assoc; apply Htrace; simpl; auto with lia.
Qed.

(** ** The conditional insert *)

(** C6: when the [PutItem] request of [createUser] fails with an error [e]:
    if [e] is named [ConditionalCheckFailedException], [createUser] throws
    the 400 error "User id ... already exists" (and logs nothing); for every
    other name it logs "createUser <name>: <message>" at error level and
    throws the 500 error "User registration error". *)
Theorem createUser_insert_failure (user : User) (key : string) (w w1 : World)
    (e : Exn) :
  id user = Some key →
  clientSend (putItemCommand w user) w = (Throw e, w1) →
  (errName e = "ConditionalCheckFailedException" →
   createUser user w =
     (Throw (HttpError 400 ("User id " ++ key ++ " already exists")), w1)) ∧
  (errName e ≠ "ConditionalCheckFailedException" →
   createUser user w =
     (Throw (HttpError 500 "User registration error"),
      add_log (mkLog Error ("createUser " ++ errName e ++ ": " ++ errMessage e)
                     NoData) w1)).
Proof.
  intros Hid Hsend. rewrite (createUser_run user key w Hid), Hsend.
  split; intros Hname.
  - rewrite Hname. reflexivity.
  - apply String.eqb_neq in Hname. rewrite Hname. reflexivity.
Qed.

Lemma createUser_insert_failure_witness :
  createUser janeUser (faultyWorld "InternalServerError" "Internal server error") =
    (Throw (HttpError 500 "User registration error"),
     add_log (mkLog Error "createUser InternalServerError: Internal server error"
                    NoData)
       (add_call (DynamoPutItem
                    (putItemCommand
                       (faultyWorld "InternalServerError" "Internal server error")
                       janeUser))
          (faultyWorld "InternalServerError" "Internal server error"))).
Proof.
  apply (createUser_insert_failure janeUser "abc-123"
           (faultyWorld "InternalServerError" "Internal server error")
           (add_call (DynamoPutItem
                        (putItemCommand
                           (faultyWorld "InternalServerError" "Internal server error")
                           janeUser))
              (faultyWorld "InternalServerError" "Internal server error"))
           (JsError "InternalServerError" "Internal server error")).
  - reflexivity.
  - reflexivity.
  - vm_compute. discriminate.
Defined.

Example createUser_already_exists :
  fst (createUser janeUser idCollisionWorld) =
    Throw (HttpError 400 "User id abc-123 already exists").
Proof. vm_compute. reflexivity. Qed.

Example createUser_race_lost :
  fst (createUser janeUser
         (faultyWorld "ConditionalCheckFailedException"
                      "The conditional request failed")) =
    Throw (HttpError 400 "User id abc-123 already exists").
Proof. vm_compute. reflexivity. Qed.

(** ** After the provider has answered *)

Lemma registerUser_after_provider (input : UserCreateInput) (w : World)
    (cognitoUser : UserType) :
  in_password input = in_repeatPassword input →
  providerReturns w input cognitoUser →
  registerUser input w =
    let w1 := afterProvider w input in
    let activationCode := nanoId w (nanoCount w) in
    match getCognitoUserId cognitoUser with
    | Throw e => (Throw e, w1)
    | Ok id =>
        match checkCollisions id activationCode (bump_nanoCount w1) with
        | (Throw e, w2) => (Throw e, w2)
        | (Ok _, w2) =>
            let user := newUser input w2 id activationCode in
            match createUser user w2 with
            | (Throw e, w3) => (Throw e, w3)
            | (Ok _, w3) =>
                (Ok (mkUserModel user),
                 add_log (mkLog Info "New user registration complete"
                                (DataUser user cognitoUser)) w3)
            end
        end
    end.
Proof.
  intros Hpw (Hcreate & Hset & Hadd). cbv zeta in *.
  rewrite registerUser_run. cbv zeta.
  rewrite bool_decide_eq_false_2 by (intros Hne; exact (Hne Hpw)).
  rewrite registerCognitoUser_run. cbv zeta. simpl cognito.
  rewrite Hcreate, Hset, Hadd. reflexivity.
Qed.

Lemma registerUser_missing_sub (input : UserCreateInput) (w : World)
    (cognitoUser : UserType) (attributes : list AttributeType) :
  in_password input = in_repeatPassword input →
  providerReturns w input cognitoUser →
  Attributes cognitoUser = Some attributes →
  js_not (subValue attributes) = true →
  registerUser input w =
    (Throw (HttpError 500
              "User registration failed: Cognito did not return a sub/id"),
     bump_nanoCount (afterProvider w input)).
Proof.
  intros Hpw Hprov Hattrs Hfalsy.
  rewrite (registerUser_after_provider input w cognitoUser Hpw Hprov). cbv zeta.
  rewrite (getCognitoUserId_present _ _ Hattrs).
  rewrite (checkCollisions_falsy _ _ _ Hfalsy). reflexivity.
Qed.

(** C10: when the provider's record has no attribute list at all,
    [getCognitoUserId] throws a [TypeError], and a registration that got that
    record from the provider ends with this [TypeError] right after the
    provider calls: it is not the 500 error of the missing identifier.  That
    500 error is the outcome exactly when the record has an attribute list
    in which the first [sub] entry is missing, or has no value or the empty
    value. *)
Theorem registerUser_absent_attribute_list (input : UserCreateInput) (w : World)
    (cognitoUser : UserType) :
  in_password input = in_repeatPassword input →
  providerReturns w input cognitoUser →
  (Attributes cognitoUser = None →
   getCognitoUserId cognitoUser =
     Throw (JsError "TypeError"
              "Cannot read properties of undefined (reading 'find')") ∧
   registerUser input w =
     (Throw (JsError "TypeError"
               "Cannot read properties of undefined (reading 'find')"),
      afterProvider w input)) ∧
  (fst (registerUser input w) =
     Throw (HttpError 500
              "User registration failed: Cognito did not return a sub/id") ↔
   ∃ attributes,
     Attributes cognitoUser = Some attributes ∧
     js_not (subValue attributes) = true).
Proof.
  intros Hpw Hprov. split.
  - intros Habsent.
    rewrite (registerUser_after_provider input w cognitoUser Hpw Hprov).
    cbv zeta. rewrite (getCognitoUserId_absent _ Habsent). split; reflexivity.
  - split.
    + rewrite (registerUser_after_provider input w cognitoUser Hpw Hprov).
      cbv zeta.
      destruct (Attributes cognitoUser) as [attributes|] eqn:Hattrs.
      2: { rewrite (getCognitoUserId_absent _ Hattrs). discriminate. }
      rewrite (getCognitoUserId_present _ _ Hattrs).
      destruct (js_not (subValue attributes)) eqn:Hfalsy; [eauto|].
      destruct (subValue attributes) as [key|]; [|discriminate].
      simpl in Hfalsy.
      destruct (decide (key = EmptyString)) as [|Hkey]; [discriminate|].
      rewrite (checkCollisions_run _ _ _ Hkey). cbv zeta.
      destruct (lookupByActivationCode _ _); [discriminate|].
      destruct (table _ !! key); [discriminate|].
      match goal with
      | |- context [createUser ?user ?w2] =>
          rewrite (createUser_run user key w2 eq_refl)
      end.
      destruct (clientSend _ _) as [[[]|e] w3]; [discriminate|].
      destruct (String.eqb _ _); discriminate.
    + intros (attributes & Hattrs & Hfalsy).
      rewrite (registerUser_missing_sub input w cognitoUser attributes);
        auto.
Qed.

Lemma registerUser_absent_attribute_list_witness :
  registerUser janeInput noAttributesWorld =
    (Throw (JsError "TypeError"
              "Cannot read properties of undefined (reading 'find')"),
     afterProvider noAttributesWorld janeInput).
Proof.
  apply (registerUser_absent_attribute_list janeInput noAttributesWorld
           noAttributesUser).
  - reflexivity.
  - vm_compute. auto.
  - reflexivity.
Defined.

(** ** The scenario *)

(** C7: for the request of the scenario, in any world where the provider
    answers with a record whose [sub] is "abc-123", neither lookup of the
    guard finds a record and the store accepts the insert, [registerUser]
    returns the model of a record that is also the one now stored under
    "abc-123", with name "Jane Doe", handle "@JaneDoe", id "abc-123", status
    "UNCONFIRMED" and badges ["NEW_MEMBER"]. *)
Theorem registerUser_jane_scenario (w : World) (cognitoUser : UserType)
    (attributes : list AttributeType) :
  providerReturns w janeInput cognitoUser →
  Attributes cognitoUser = Some attributes →
  subValue attributes = Some "abc-123" →
  lookupByActivationCode (table w) (nanoId w (nanoCount w)) = None →
  table w !! "abc-123" = None →
  dynamoFault w (putItemCommand w
                   (newUser janeInput w (Some "abc-123")
                            (nanoId w (nanoCount w)))) = None →
  ∃ user w',
    registerUser janeInput w = (Ok (mkUserModel user), w') ∧
    table w' = <["abc-123" := user]> (table w) ∧
    name user = "Jane Doe" ∧
    handle user = "@JaneDoe" ∧
    id user = Some "abc-123" ∧
    status user = "UNCONFIRMED" ∧
    badges user = ["NEW_MEMBER"].
Proof.
  intros Hprov Hattrs Hsub HbyCode HbyId Hfault.
  rewrite (registerUser_after_provider janeInput w cognitoUser eq_refl Hprov).
  cbv zeta. rewrite (getCognitoUserId_present _ _ Hattrs), Hsub.
  rewrite checkCollisions_run by discriminate. cbv zeta. simpl table.
  rewrite HbyCode. simpl. rewrite HbyId.
  match goal with
  | |- context [createUser ?user ?w2] =>
      rewrite (createUser_run user "abc-123" w2 eq_refl)
  end.
  unfold clientSend, putItemCommand, newUser in *. simpl in *.
  rewrite Hfault, HbyId. simpl.
  eexists _, _. split; [reflexivity|]. simpl. repeat split.
Qed.

Lemma registerUser_jane_scenario_witness :
  ∃ user w',
    registerUser janeInput janeWorld = (Ok (mkUserModel user), w') ∧
    table w' = <["abc-123" := user]> (table janeWorld) ∧
    name user = "Jane Doe" ∧
    handle user = "@JaneDoe" ∧
    id user = Some "abc-123" ∧
    status user = "UNCONFIRMED" ∧
    badges user = ["NEW_MEMBER"].
Proof.
  apply (registerUser_jane_scenario janeWorld janeCognitoUser
           [ {| Name := Some "email"; Value := Some "jane@x.com" |};
             {| Name := Some "sub"; Value := Some "abc-123" |} ]).
  - vm_compute. auto.
  - reflexivity.
  - reflexivity.
  - reflexivity.
  - reflexivity.
  - reflexivity.
Defined.

(** ** Where the code departs from its specification *)

(** C3, at a provider record without attribute list: the record has no [sub]
    attribute, the registration fails, but with a [TypeError] of the runtime
    and not with a 500-class error.  The profile store is not called. *)
Theorem registerUser_no_attribute_list_not_5xx :
  Attributes noAttributesUser = None ∧
  fst (registerUser janeInput noAttributesWorld) =
    Throw (JsError "TypeError"
             "Cannot read properties of undefined (reading 'find')") ∧
  is5xx (JsError "TypeError"
           "Cannot read properties of undefined (reading 'find')") = false ∧
  filter (fun c => isStoreCall c = true)
         (calls (snd (registerUser janeInput noAttributesWorld))) = [].
Proof. vm_compute. repeat split. Qed.

(** C9, at a provider record whose attribute list has no [sub] entry: the
    registration fails with the 500 error of the missing identifier, and the
    log holds the debug entry of the start and nothing else: no entry at
    error level was written. *)
Theorem registerUser_missing_id_not_logged :
  fst (registerUser janeInput noSubWorld) =
    Throw (HttpError 500
             "User registration failed: Cognito did not return a sub/id") ∧
  logs (snd (registerUser janeInput noSubWorld)) =
    [mkLog Debug "Start user registration" (DataInput janeInput)] ∧
  Forall (fun entry => log_level entry ≠ Error)
         (logs (snd (registerUser janeInput noSubWorld))).
Proof.
  assert (registerUser janeInput noSubWorld =
          (Throw (HttpError 500
                    "User registration failed: Cognito did not return a sub/id"),
           bump_nanoCount (afterProvider noSubWorld janeInput))) as E.
  { apply (registerUser_missing_sub janeInput noSubWorld noSubUser
             [ {| Name := Some "email"; Value := Some "jane@x.com" |} ]);
      try reflexivity.
    vm_compute. auto. }
  rewrite E. simpl. repeat split.
  constructor; [discriminate | constructor].
Qed.

(** * Further properties of the code *)

(** ** The conditional insert, when it goes through and when it does not *)

Lemma createUser_ok_inv (user : User) (w w3 : World) :
  createUser user w = (Ok tt, w3) →
  ∃ key,
    id user = Some key ∧
    dynamoFault w (putItemCommand w user) = None ∧
    table w !! key = None ∧
    w3 = set_table (<[key := user]> (table w))
           (add_call (DynamoPutItem (putItemCommand w user)) w).
Proof.
  destruct (id user) as [key|] eqn:Hid.
  - rewrite (createUser_run user key w Hid). unfold clientSend.
    destruct (dynamoFault w (putItemCommand w user)) as [[n m]|] eqn:Hfault.
    { destruct (String.eqb _ _); discriminate. }
    simpl. rewrite Hid. simpl.
    destruct (table w !! key) as [old|] eqn:Hold.
    + rewrite bool_decide_eq_true_2 by eauto. simpl. discriminate.
    + rewrite bool_decide_eq_false_2 by (intros [? ?]; discriminate).
      intros H. injection H as <-. exists key. auto.
  - unfold createUser, marshall, lift, bind. rewrite Hid. simpl. discriminate.
Qed.

Lemma createUser_throw_table (user : User) (w w3 : World) (e : Exn) :
  createUser user w = (Throw e, w3) → table w3 = table w.
Proof.
  destruct (id user) as [key|] eqn:Hid.
  - rewrite (createUser_run user key w Hid). unfold clientSend.
    destruct (dynamoFault w (putItemCommand w user)) as [[n m]|].
    { destruct (String.eqb _ _); intros H; injection H as <- <-; reflexivity. }
    simpl. rewrite Hid. simpl.
    destruct (bool_decide _); simpl; [|discriminate].
    intros H. injection H as <- <-. reflexivity.
  - unfold createUser, marshall, lift, bind. rewrite Hid. simpl.
    intros H. injection H as <- <-. reflexivity.
Qed.

(** X1: when [createUser] returns, the record had an id, no record was stored
    under that id before, the table afterwards is the old one with the record
    added under its id (so a lookup by that id gives the record back and
    every other key is as before), exactly one [PutItem] was sent, with the
    condition [attribute_not_exists(id)], and nothing was logged. *)
Theorem createUser_success_round_trip (user : User) (w w' : World) :
  createUser user w = (Ok tt, w') →
  ∃ key,
    id user = Some key ∧
    table w !! key = None ∧
    table w' = <[key := user]> (table w) ∧
    table w' !! key = Some user ∧
    (∀ other, other ≠ key → table w' !! other = table w !! other) ∧
    calls w' = calls w ++
      [DynamoPutItem {| TableName := usersTableName w;
                        Item := user;
                        ConditionExpression := "attribute_not_exists(id)" |}] ∧
    logs w' = logs w.
Proof.
  intros H. destruct (createUser_ok_inv user w w' H)
    as (key & Hid & _ & Hfresh & ->).
  exists key. simpl. repeat split; auto.
  - apply lookup_insert_eq.
  - intros other Hother. apply lookup_insert_ne. congruence.
Qed.

Lemma createUser_success_round_trip_witness :
  table (snd (createUser janeUser janeWorld)) !! "abc-123" = Some janeUser.
Proof.
  destruct (createUser_success_round_trip janeUser janeWorld
              (snd (createUser janeUser janeWorld)))
    as (key & Hid & _ & _ & Hlookup & _).
  - vm_compute. reflexivity.
  - injection Hid as <-. exact Hlookup.
Defined.

(** X2: [createUser] never overwrites.  When a record is already stored under
    the id of the new one, [createUser] throws, with status 400 or 500, and
    the table is left as it was; when the store has no failure of its own,
    the error is the 400 "User id ... already exists". *)
Theorem createUser_never_overwrites (user old : User) (key : string) (w : World) :
  id user = Some key →
  table w !! key = Some old →
  table (snd (createUser user w)) = table w ∧
  (∃ e, fst (createUser user w) = Throw e ∧ (is4xx e || is5xx e) = true) ∧
  (dynamoFault w (putItemCommand w user) = None →
   fst (createUser user w) =
     Throw (HttpError 400 ("User id " ++ key ++ " already exists"))).
Proof.
  intros Hid Hold. rewrite (createUser_run user key w Hid). unfold clientSend.
  destruct (dynamoFault w (putItemCommand w user)) as [[n m]|].
  - simpl. destruct (String.eqb n _); simpl; repeat split; eauto; discriminate.
  - simpl. rewrite Hid. simpl. rewrite Hold.
    rewrite bool_decide_eq_true_2 by eauto. simpl. repeat split; eauto.
Qed.

Lemma createUser_never_overwrites_witness :
  table (snd (createUser janeUser idCollisionWorld)) = table idCollisionWorld.
Proof.
  apply (createUser_never_overwrites janeUser sameIdUser "abc-123" idCollisionWorld).
  - reflexivity.
  - vm_compute. reflexivity.
Defined.

(** ** Picking the subject id *)

Lemma find_first {A} (p : A → bool) (before after : list A) (a : A) :
  Forall (fun x => p x = false) before → p a = true →
  List.find p (before ++ a :: after) = Some a.
Proof.
  intros Hbefore Ha. induction Hbefore as [|x before Hx _ IH]; simpl.
  - rewrite Ha. reflexivity.
  - rewrite Hx. exact IH.
Qed.

(** X3: [getCognitoUserId] returns the value of the first entry named [sub]:
    entries before it with another name and whatever comes after it (a second
    [sub] entry included) play no role. *)
Theorem getCognitoUserId_first_sub (user : UserType)
    (before after : list AttributeType) (sub : AttributeType) :
  Attributes user = Some (before ++ sub :: after) →
  Forall (fun attr => Name attr ≠ Some "sub") before →
  Name sub = Some "sub" →
  getCognitoUserId user = Ok (Value sub).
Proof.
  intros Hattrs Hbefore Hsub. unfold getCognitoUserId. rewrite Hattrs.
  rewrite (find_first _ before after sub); [reflexivity| |].
  - eapply Forall_impl; [exact Hbefore|]. simpl. intros attr Hattr.
    apply bool_decide_eq_false_2. exact Hattr.
  - apply bool_decide_eq_true_2. exact Hsub.
Qed.

Lemma getCognitoUserId_first_sub_witness :
  getCognitoUserId twoSubsUser = Ok (Some "abc-123").
Proof.
  apply (getCognitoUserId_first_sub twoSubsUser
           [ {| Name := Some "email"; Value := Some "jane@x.com" |} ]
           [ {| Name := Some "sub"; Value := Some "def-456" |} ]
           {| Name := Some "sub"; Value := Some "abc-123" |}).
  - reflexivity.
  - constructor; [simpl; discriminate | constructor].
  - reflexivity.
Defined.

(** X4: an id that [getCognitoUserId] returns is the value of an entry of the
    record's attribute list whose name is [sub]. *)
Theorem getCognitoUserId_sound (user : UserType) (value : string) :
  getCognitoUserId user = Ok (Some value) →
  ∃ attributes sub,
    Attributes user = Some attributes ∧ In sub attributes ∧
    Name sub = Some "sub" ∧ Value sub = Some value.
Proof.
  intros H. unfold getCognitoUserId in H.
  destruct (Attributes user) as [attributes|]; [|discriminate].
  simpl in H.
  destruct (List.find _ attributes) as [sub|] eqn:Hfind; [|discriminate].
  apply List.find_some in Hfind as [Hin Hname].
  apply bool_decide_eq_true_1 in Hname.
  injection H as Hvalue. eauto 6.
Qed.

Lemma getCognitoUserId_sound_witness :
  ∃ attributes sub,
    Attributes janeCognitoUser = Some attributes ∧ In sub attributes ∧
    Name sub = Some "sub" ∧ Value sub = Some "abc-123".
Proof.
  apply (getCognitoUserId_sound janeCognitoUser "abc-123"). reflexivity.
Defined.

(** X5: on a record whose attribute list is there and holds no entry named
    [sub] (the empty list included), [getCognitoUserId] does not throw: it
    returns [undefined]. *)
Theorem getCognitoUserId_without_sub (user : UserType)
    (attributes : list AttributeType) :
  Attributes user = Some attributes →
  Forall (fun attr => Name attr ≠ Some "sub") attributes →
  getCognitoUserId user = Ok None.
Proof.
  intros Hattrs Hnone. unfold getCognitoUserId. rewrite Hattrs.
  simpl. destruct (List.find _ attributes) as [sub|] eqn:Hfind; [|reflexivity].
  apply List.find_some in Hfind as [Hin Hname].
  apply bool_decide_eq_true_1 in Hname.
  rewrite Forall_forall in Hnone. destruct (Hnone sub); [|assumption].
  apply list_elem_of_In. exact Hin.
Qed.

Lemma getCognitoUserId_without_sub_witness :
  getCognitoUserId noSubUser = Ok None.
Proof.
  apply (getCognitoUserId_without_sub noSubUser
           [ {| Name := Some "email"; Value := Some "jane@x.com" |} ]).
  - reflexivity.
  - constructor; [simpl; discriminate | constructor].
Defined.

(** ** The three provider requests *)

(** X6: [registerCognitoUser] returns exactly when all three provider
    requests succeed, and what it returns is the record the create request
    gave, untouched by the two later requests. *)
Theorem registerCognitoUser_ok_iff (email name password : string)
    (group : COGNITO_USER_GROUP) (w : World) (user : UserType) :
  fst (registerCognitoUser email name password group w) = Ok user ↔
  cognito_createUser (cognito w) email name = Ok user ∧
  cognito_setPassword (cognito w) email password = Ok tt ∧
  cognito_addUserToGroups (cognito w) email [group] = Ok tt.
Proof.
  rewrite registerCognitoUser_run. cbv zeta.
  destruct (cognito_createUser _ _ _) as [created|e1]; simpl.
  2: { split; [discriminate | intros (H & _); discriminate]. }
  destruct (cognito_setPassword _ _ _) as [[]|e2]; simpl.
  2: { split; [discriminate | intros (_ & H & _); discriminate]. }
  destruct (cognito_addUserToGroups _ _ _) as [[]|e3]; simpl.
  2: { split; [discriminate | intros (_ & _ & H); discriminate]. }
  split.
  - intros H. injection H as ->. auto.
  - intros (H & _). injection H as ->. reflexivity.
Qed.

(** X7: when [registerCognitoUser] throws, the error is the one the failing
    provider request gave, unchanged, and no later request is made: a failed
    create is followed by nothing, a failed set-password is not followed by
    the group assignment.  The identity created before the failure is left
    as it is (no request is made to remove it), and neither the table nor the
    log is touched. *)
Theorem registerCognitoUser_stops_at_failure (email name password : string)
    (group : COGNITO_USER_GROUP) (w w' : World) (e : Exn) :
  registerCognitoUser email name password group w = (Throw e, w') →
  table w' = table w ∧ logs w' = logs w ∧
  ((cognito_createUser (cognito w) email name = Throw e ∧
    calls w' = calls w ++ [CognitoCreateUser email name]) ∨
   (cognito_setPassword (cognito w) email password = Throw e ∧
    calls w' = calls w ++ [CognitoCreateUser email name;
                           CognitoSetPassword email password]) ∨
   (cognito_addUserToGroups (cognito w) email [group] = Throw e ∧
    calls w' = calls w ++ [CognitoCreateUser email name;
                           CognitoSetPassword email password;
                           CognitoAddUserToGroups email [group]])).
Proof.
  rewrite registerCognitoUser_run. cbv zeta.
  destruct (cognito_createUser _ _ _) as [created|e1].
  2: { intros H. injection H as <- <-. simpl. auto 10. }
  destruct (cognito_setPassword _ _ _) as [[]|e2].
  2: { intros H. injection H as <- <-. simpl. rewrite <- app_assoc. auto 10. }
  destruct (cognito_addUserToGroups _ _ _) as [[]|e3]; [discriminate|].
  intros H. injection H as <- <-. simpl. rewrite <- !app_assoc. auto 10.
Qed.

Lemma registerCognitoUser_stops_at_failure_witness :
  table (snd (registerCognitoUser "jane@x.com" "Jane Doe" "p" USER
                passwordRejectedWorld)) = table passwordRejectedWorld.
Proof.
  apply (registerCognitoUser_stops_at_failure "jane@x.com" "Jane Doe" "p" USER
           passwordRejectedWorld
           (snd (registerCognitoUser "jane@x.com" "Jane Doe" "p" USER
                   passwordRejectedWorld))
           (JsError "InvalidPasswordException"
                    "Password did not conform with policy")).
  vm_compute. reflexivity.
Defined.

(** ** The whole registration *)

Lemma registerUser_ok_inv (input : UserCreateInput) (w w' : World)
    (model : UserModel) :
  registerUser input w = (Ok model, w') →
  ∃ cognitoUser key,
    in_password input = in_repeatPassword input ∧
    providerReturns w input cognitoUser ∧
    getCognitoUserId cognitoUser = Ok (Some key) ∧
    key ≠ EmptyString ∧
    lookupByActivationCode (table w) (nanoId w (nanoCount w)) = None ∧
    table w !! key = None ∧
    dynamoFault w (putItemCommand w
      (newUser input w (Some key) (nanoId w (nanoCount w)))) = None ∧
    model = mkUserModel (newUser input w (Some key) (nanoId w (nanoCount w))) ∧
    w' = add_log (mkLog Info "New user registration complete"
                    (DataUser (newUser input w (Some key) (nanoId w (nanoCount w)))
                              cognitoUser))
           (set_table (<[key := newUser input w (Some key) (nanoId w (nanoCount w))]>
                         (table w))
              (add_call (DynamoPutItem (putItemCommand w
                           (newUser input w (Some key) (nanoId w (nanoCount w)))))
                 (add_call (DynamoGetUserById key None)
                    (add_call (DynamoGetUserByActivationCode
                                 (nanoId w (nanoCount w)) None)
                       (bump_nanoCount (afterProvider w input)))))).
Proof.
  intros H. run_paths H; simpl in H; try discriminate.
  destruct (createUser _ _) as [[[]|e] w3] eqn:Hc; [|discriminate].
  injection H as <- <-.
  apply createUser_ok_inv in Hc as (key' & Hid & Hfault & Hfresh & ->).
  simpl in Hid. injection Hid as <-.
  exists cognitoUser, key. repeat split; auto.
Qed.

(** X8: a registration that succeeds made exactly six remote calls, in this
    order: create the identity, set its password, add it to the [USER] group
    (all three with the normalised email), look up the activation code, look
    up the id (both finding nothing), and one [PutItem] of the returned record
    with the condition [attribute_not_exists(id)].  It took one value from the
    id generator and wrote two log entries, the debug entry of the start and
    the info entry of the completion. *)
Theorem registerUser_success_trace (input : UserCreateInput) (w w' : World)
    (model : UserModel) :
  registerUser input w = (Ok model, w') →
  ∃ key cognitoUser,
    model_id model = Some key ∧
    calls w' = calls w ++
      [CognitoCreateUser (collapseSpaces (in_email input) true)
                         (collapseSpaces (in_name input) true);
       CognitoSetPassword (collapseSpaces (in_email input) true)
                          (in_password input);
       CognitoAddUserToGroups (collapseSpaces (in_email input) true) [USER];
       DynamoGetUserByActivationCode (activationCode (model_user model)) None;
       DynamoGetUserById key None;
       DynamoPutItem {| TableName := usersTableName w;
                        Item := model_user model;
                        ConditionExpression := "attribute_not_exists(id)" |}] ∧
    nanoCount w' = S (nanoCount w) ∧
    logs w' = logs w ++
      [mkLog Debug "Start user registration" (DataInput input);
       mkLog Info "New user registration complete"
             (DataUser (model_user model) cognitoUser)].
Proof.
  intros H.
  destruct (registerUser_ok_inv input w w' model H)
    as (cognitoUser & key & _ & _ & _ & _ & _ & _ & _ & -> & ->).
  exists key, cognitoUser. simpl. rewrite <- !app_assoc. simpl.
  repeat split.
Qed.

Lemma registerUser_success_trace_witness :
  length (calls (snd (registerUser janeInput janeWorld))) = 6%nat.
Proof.
  destruct (registerUser_success_trace janeInput janeWorld
              (snd (registerUser janeInput janeWorld)) (mkUserModel janeUser))
    as (key & cognitoUser & _ & Hcalls & _).
  - vm_compute. reflexivity.
  - rewrite Hcalls. reflexivity.
Defined.

(** X9: the guard invariant and the insert.  When a registration succeeds,
    the id of the new profile is a non-empty string, the activation code is
    the value the generator gave, and before the run neither a record under
    that id nor a record with that activation code was in the table.
    Afterwards the table is the old one with the returned record added under
    its id: a lookup by the id gives the returned record, and every other key
    is as before. *)
Theorem registerUser_success_store (input : UserCreateInput) (w w' : World)
    (model : UserModel) :
  registerUser input w = (Ok model, w') →
  ∃ key,
    model_id model = Some key ∧ key ≠ EmptyString ∧
    activationCode (model_user model) = nanoId w (nanoCount w) ∧
    table w !! key = None ∧
    lookupByActivationCode (table w) (activationCode (model_user model)) = None ∧
    table w' = <[key := model_user model]> (table w) ∧
    table w' !! key = Some (model_user model) ∧
    (∀ other, other ≠ key → table w' !! other = table w !! other).
Proof.
  intros H.
  destruct (registerUser_ok_inv input w w' model H)
    as (cognitoUser & key & _ & _ & _ & Hkey & HbyCode & HbyId & _ & -> & ->).
  exists key. simpl. repeat split; auto.
  - apply lookup_insert_eq.
  - intros other Hother. apply lookup_insert_ne. congruence.
Qed.

Lemma registerUser_success_store_witness :
  table (snd (registerUser janeInput janeWorld)) !! "abc-123" = Some janeUser.
Proof.
  destruct (registerUser_success_store janeInput janeWorld
              (snd (registerUser janeInput janeWorld)) (mkUserModel janeUser))
    as (key & Hid & _ & _ & _ & _ & _ & Hlookup & _).
  - vm_compute. reflexivity.
  - injection Hid as <-. exact Hlookup.
Defined.

(** X10: a registration that fails writes nothing to the table, whatever the
    step that failed: there is never a partly written profile. *)
Theorem registerUser_failure_keeps_table (input : UserCreateInput)
    (w w' : World) (e : Exn) :
  registerUser input w = (Throw e, w') →
  table w' = table w.
Proof.
  intros H. run_paths H; simpl in H.
  all: try (destruct (createUser _ _) as [[[]|e'] w3] eqn:Hc;
            [discriminate|];
            injection H as <- <-;
            apply createUser_throw_table in Hc; rewrite Hc; reflexivity).
  all: injection H as <- <-; reflexivity.
Qed.

Lemma registerUser_failure_keeps_table_witness :
  table (snd (registerUser janeInput idCollisionWorld)) = table idCollisionWorld.
Proof.
  apply (registerUser_failure_keeps_table janeInput idCollisionWorld
           (snd (registerUser janeInput idCollisionWorld))
           (HttpError 500 "User registration failed: User id collision")).
  vm_compute. reflexivity.
Defined.

(** X11: a failure of the identity provider goes through [registerUser]
    unchanged.  When the passwords match and one of the three provider
    requests throws [e], [registerUser] throws the same [e]; it has then made
    provider calls only (no lookup, no [PutItem]), has not touched the table,
    has taken no value from the id generator and has logged the debug entry
    of the start and nothing else. *)
Theorem registerUser_provider_failure (input : UserCreateInput) (w : World)
    (e : Exn) :
  in_password input = in_repeatPassword input →
  fst (registerCognitoUser (collapseSpaces (in_email input) true)
         (collapseSpaces (in_name input) true) (in_password input) USER w) =
    Throw e →
  fst (registerUser input w) = Throw e ∧
  table (snd (registerUser input w)) = table w ∧
  nanoCount (snd (registerUser input w)) = nanoCount w ∧
  logs (snd (registerUser input w)) =
    logs w ++ [mkLog Debug "Start user registration" (DataInput input)] ∧
  ∃ t, calls (snd (registerUser input w)) = calls w ++ t ∧
       Forall (fun c => isStoreCall c = false) t.
Proof.
  intros Hpw Hfail. rewrite registerUser_run. cbv zeta.
  rewrite bool_decide_eq_false_2 by (intros Hne; exact (Hne Hpw)).
  rewrite registerCognitoUser_run in *. cbv zeta in *. simpl cognito.
  destruct (cognito_createUser _ _ _) as [created|e1]; simpl in *.
  2: { injection Hfail as ->. repeat split. eexists. split; [reflexivity | repeat constructor]. }
  destruct (cognito_setPassword _ _ _) as [[]|e2]; simpl in *.
  2: { injection Hfail as ->. repeat split. eexists.
       rewrite <- app_assoc. split; [reflexivity | repeat constructor]. }
  destruct (cognito_addUserToGroups _ _ _) as [[]|e3]; simpl in *;
    [discriminate|].
  injection Hfail as ->. repeat split. eexists.
  rewrite <- !app_assoc. split; [reflexivity | repeat constructor].
Qed.

Lemma registerUser_provider_failure_witness :
  fst (registerUser janeInput passwordRejectedWorld) =
    Throw (JsError "InvalidPasswordException"
                   "Password did not conform with policy").
Proof.
  apply (registerUser_provider_failure janeInput passwordRejectedWorld
           (JsError "InvalidPasswordException"
                    "Password did not conform with policy")).
  - reflexivity.
  - vm_compute. reflexivity.
Defined.

(** X12: the profile store is only ever called after the identity is fully
    provisioned.  If a run of [registerUser] contains a call to the store (a
    lookup or a [PutItem]), then the passwords matched, all three provider
    requests succeeded, and the run began with these three requests. *)
Theorem registerUser_store_after_provider (input : UserCreateInput)
    (w w' : World) (r : Result UserModel) (t : list Call) (c : Call) :
  registerUser input w = (r, w') →
  calls w' = calls w ++ t →
  In c t →
  isStoreCall c = true →
  in_password input = in_repeatPassword input ∧
  (∃ cognitoUser, providerReturns w input cognitoUser) ∧
  ∃ rest,
    t = [CognitoCreateUser (collapseSpaces (in_email input) true)
                           (collapseSpaces (in_name input) true);
         CognitoSetPassword (collapseSpaces (in_email input) true)
                            (in_password input);
         CognitoAddUserToGroups (collapseSpaces (in_email input) true) [USER]]
        ++ rest.
Proof.
  intros H Ht Hin Hstore. run_paths H; simpl in H; try split_insert H;
    injection H as <- <-; simpl in Ht; try rewrite Hcalls in Ht; get_trace Ht;
    simpl in Hin;
    try solve [intuition (subst; discriminate)];
    (split; [assumption|]);
    (split; [exists cognitoUser; exact (conj Hcreate (conj Hset Hadd))|]);
    eexists; reflexivity.
Qed.

Lemma registerUser_store_after_provider_witness :
  ∃ cognitoUser, providerReturns idCollisionWorld janeInput cognitoUser.
Proof.
  apply (registerUser_store_after_provider janeInput idCollisionWorld
           (snd (registerUser janeInput idCollisionWorld))
           (fst (registerUser janeInput idCollisionWorld))
           (calls (snd (registerUser janeInput idCollisionWorld)))
           (DynamoGetUserById "abc-123" (Some sameIdUser))).
  - vm_compute. reflexivity.
  - vm_compute. reflexivity.
  - vm_compute. tauto.
  - reflexivity.
Defined.



Lemma createUser_logs (user : User) (w : World) :
  ∃ l, logs (snd (createUser user w)) = logs w ++ l ∧
       Forall (fun entry => log_level entry = Error) l.
Proof.
  destruct (createUser user w) as [[[]|e] w3] eqn:Hc.
  - apply createUser_ok_inv in Hc as (key & _ & _ & _ & ->).
    exists []. simpl. rewrite app_nil_r. auto.
  - destruct (id user) as [key|] eqn:Hid.
    + rewrite (createUser_run user key w Hid) in Hc. unfold clientSend in Hc.
      destruct (dynamoFault w (putItemCommand w user)) as [[n m]|].
      * destruct (String.eqb _ _); injection Hc as <- <-; simpl.
        -- exists []. rewrite app_nil_r. auto.
        -- eexists [_]. split; [reflexivity|]. repeat constructor.
      * simpl in Hc. rewrite Hid in Hc. simpl in Hc.
        destruct (bool_decide _); simpl in Hc; [|discriminate].
        injection Hc as <- <-. exists []. simpl. rewrite app_nil_r. auto.
    + unfold createUser, marshall, lift, bind in Hc. rewrite Hid in Hc.
      simpl in Hc. injection Hc as <- <-. exists []. rewrite app_nil_r. auto.
Qed.

(** X14: every call of [registerUser], also one that is rejected at once,
    first writes a debug log entry that carries the request as it came in,
    the password and the repeated password included. *)
Theorem registerUser_logs_raw_input (input : UserCreateInput) (w : World) :
  ∃ rest,
    logs (snd (registerUser input w)) =
      logs w ++ mkLog Debug "Start user registration" (DataInput input) :: rest.
Proof.
  destruct (registerUser input w) as [r w'] eqn:H.
  run_paths H; simpl in H;
    try (match type of H with
         | context [createUser ?user ?w2] =>
             destruct (createUser_logs user w2) as (l & Hl & _);
             destruct (createUser user w2) as [[[]|?] ?]; simpl in Hl
         end);
    injection H as <- <-; simpl; try rewrite Hl; simpl;
    rewrite <- ?app_assoc; simpl; eexists; reflexivity.
Qed.

(** X15: the info entry "New user registration complete" is written exactly
    when the registration succeeds: a run that returns a model has written an
    info-level entry, a run that throws has written none. *)
Theorem registerUser_info_iff_success (input : UserCreateInput) (w w' : World)
    (r : Result UserModel) (l : list LogEntry) :
  registerUser input w = (r, w') →
  logs w' = logs w ++ l →
  (∃ model, r = Ok model) ↔ (∃ entry, In entry l ∧ log_level entry = Info).
Proof.
  intros H Hlogs.
  run_paths H; simpl in H;
    try (match type of H with
         | context [createUser ?user ?w2] =>
             destruct (createUser_logs user w2) as (l' & Hl & Hlevel);
             destruct (createUser user w2) as [[[]|?] ?]; simpl in Hl
         end);
    injection H as <- <-; simpl in Hlogs; try rewrite Hl in Hlogs;
    simpl in Hlogs; rewrite <- ?app_assoc in Hlogs; simpl in Hlogs;
    apply app_inv_head in Hlogs; subst l.
  all: try solve [split; [intros [? ?]; discriminate
                         | intros (entry & Hin & Hinfo); simpl in Hin;
                           intuition (subst; discriminate)]].
  - split; [|eauto]. intros _. eexists.
    split; [simpl; right; apply in_or_app; right; left; reflexivity|].
    reflexivity.
  - split; [intros [? ?]; discriminate|].
    intros (entry & Hin & Hinfo). simpl in Hin.
    destruct Hin as [<-|Hin]; [discriminate|].
    rewrite Forall_forall in Hlevel.
    apply list_elem_of_In, Hlevel in Hin. congruence.
Qed.

Lemma registerUser_info_iff_success_witness :
  ∃ entry,
    In entry (logs (snd (registerUser janeInput janeWorld))) ∧
    log_level entry = Info.
Proof.
  apply (registerUser_info_iff_success janeInput janeWorld
           (snd (registerUser janeInput janeWorld))
           (fst (registerUser janeInput janeWorld))
           (logs (snd (registerUser janeInput janeWorld)))).
  - vm_compute. reflexivity.
  - vm_compute. reflexivity.
  - exists (mkUserModel janeUser). vm_compute. reflexivity.
Defined.

(** X16: the identity without profile.  When the provider has created the
    identity and the guard has passed, a failure of the store at the insert
    makes the registration fail, with the 400 "already exists" error if the
    store reports [ConditionalCheckFailedException] (a concurrent
    registration won the race between the guard and the insert) and with the
    500 "User registration error" otherwise.  Nothing is written to the
    table, and the run consists of the three provider requests, the two
    lookups and the [PutItem]: no request undoes the creation of the
    identity. *)
Theorem registerUser_insert_fault (input : UserCreateInput) (w : World)
    (cognitoUser : UserType) (key errorName errorMessage : string) :
  in_password input = in_repeatPassword input →
  providerReturns w input cognitoUser →
  getCognitoUserId cognitoUser = Ok (Some key) →
  key ≠ EmptyString →
  lookupByActivationCode (table w) (nanoId w (nanoCount w)) = None →
  table w !! key = None →
  dynamoFault w (putItemCommand w
    (newUser input w (Some key) (nanoId w (nanoCount w)))) =
    Some (errorName, errorMessage) →
  fst (registerUser input w) =
    Throw (if String.eqb errorName "ConditionalCheckFailedException"
           then HttpError 400 ("User id " ++ key ++ " already exists")
           else HttpError 500 "User registration error") ∧
  table (snd (registerUser input w)) = table w ∧
  calls (snd (registerUser input w)) = calls w ++
    [CognitoCreateUser (collapseSpaces (in_email input) true)
                       (collapseSpaces (in_name input) true);
     CognitoSetPassword (collapseSpaces (in_email input) true)
                        (in_password input);
     CognitoAddUserToGroups (collapseSpaces (in_email input) true) [USER];
     DynamoGetUserByActivationCode (nanoId w (nanoCount w)) None;
     DynamoGetUserById key None;
     DynamoPutItem (putItemCommand w
       (newUser input w (Some key) (nanoId w (nanoCount w))))].
Proof.
  intros Hpw Hprov Hsub Hkey HbyCode HbyId Hfault.
  destruct (registerUser input w) as [r w'] eqn:H.
  rewrite (registerUser_after_provider input w cognitoUser Hpw Hprov) in H.
  cbv zeta in H. rewrite Hsub, (checkCollisions_run key _ _ Hkey) in H.
  cbv zeta in H. simpl table in H. rewrite HbyCode, HbyId in H.
  match type of H with
  | context [createUser ?user ?w2] =>
      rewrite (createUser_run user key w2 eq_refl) in H
  end.
  unfold clientSend in H. simpl dynamoFault in H.
  unfold putItemCommand, newUser in *. simpl in *. rewrite Hfault in H.
  simpl in H.
  destruct (String.eqb errorName _); injection H as <- <-; simpl;
    rewrite <- ?app_assoc; repeat split.
Qed.

Lemma registerUser_insert_fault_witness :
  fst (registerUser janeInput
         (faultyWorld "ConditionalCheckFailedException"
                      "The conditional request failed")) =
    Throw (HttpError 400 "User id abc-123 already exists").
Proof.
  apply (registerUser_insert_fault janeInput
           (faultyWorld "ConditionalCheckFailedException"
                        "The conditional request failed")
           janeCognitoUser "abc-123" "ConditionalCheckFailedException"
           "The conditional request failed").
  - reflexivity.
  - vm_compute. auto.
  - reflexivity.
  - discriminate.
  - reflexivity.
  - reflexivity.
  - reflexivity.
Defined.

(** ** The guard on its own *)



